(** * psiphon/LookupIP.go: device-bound hostname resolution

    A shallow embedding of [LookupIP] and [bindLookupIP] together with the
    parts of the Go runtime they touch: the textual IP parser of package
    [net], the system calls on descriptors, the deferred calls of a Go
    function, and the answer section of a DNS message. *)

From Stdlib Require Import ZArith List String Ascii Bool Lia.
Import ListNotations.
Local Open Scope string_scope.
Local Open Scope Z_scope.

(** ** Package net: addresses and their textual form *)

Module net.

(** [net.IP] is a byte slice; a byte is kept as its value in [0, 255]. *)
Definition IP := list Z.

Definition IPv4len : nat := 4.
Definition IPv6len : nat := 16.

Definition byte (n : Z) : Z := n mod 256.

(** [s[i]] as a number; reads outside the string are guarded by the callers. *)
Definition at_ (s : string) (i : nat) : Z :=
  match String.get i s with
  | Some c => Z.of_N (N_of_ascii c)
  | None => 0
  end.

Definition len (s : string) : nat := String.length s.

(** [s[i:]] *)
Definition from (s : string) (i : nat) : string :=
  String.substring i (len s - i) s.

(** [p[i] = v] on a slice that is long enough. *)
Fixpoint store (p : list Z) (i : nat) (v : Z) : list Z :=
  match p, i with
  | [], _ => []
  | _ :: q, O => v :: q
  | x :: q, S i' => x :: store q i' v
  end.

Definition load (p : list Z) (i : nat) : Z := nth i p 0.

(** The builtin [copy(dst, src)]: the first [min(len dst, len src)] bytes. *)
Definition copy (dst src : list Z) : list Z :=
  let n := Nat.min (List.length dst) (List.length src) in
  (firstn n src ++ skipn n dst)%list.

Definition big : Z := 16777215.

Definition is_digit (c : Z) : bool := (48 <=? c) && (c <=? 57).

(** [dtoi]: decimal number starting at [s[i0]]; number, new offset, success. *)
Fixpoint dtoi_loop (fuel : nat) (s : string) (i0 : nat) (n : Z) (i : nat)
  : Z * nat * bool :=
  let done := if Nat.eqb i i0 then (0, i, false) else (n, i, true) in
  match fuel with
  | O => done
  | S fuel' =>
      if Nat.ltb i (len s) && is_digit (at_ s i) then
        let n' := n * 10 + (at_ s i - 48) in
        if big <=? n' then (0, i, false)
        else dtoi_loop fuel' s i0 n' (S i)
      else done
  end.

Definition dtoi (s : string) (i0 : nat) : Z * nat * bool :=
  dtoi_loop (S (len s)) s i0 0 i0.

(** The value of a hexadecimal digit, when [c] is one. *)
Definition hex_digit (c : Z) : option Z :=
  if (48 <=? c) && (c <=? 57) then Some (c - 48)
  else if (97 <=? c) && (c <=? 102) then Some (c - 97 + 10)
  else if (65 <=? c) && (c <=? 70) then Some (c - 65 + 10)
  else None.

(** [xtoi]: hexadecimal number starting at [s[i0]]. *)
Fixpoint xtoi_loop (fuel : nat) (s : string) (i0 : nat) (n : Z) (i : nat)
  : Z * nat * bool :=
  let done := if Nat.eqb i i0 then (0, i, false) else (n, i, true) in
  match fuel with
  | O => done
  | S fuel' =>
      if Nat.ltb i (len s) then
        match hex_digit (at_ s i) with
        | Some d =>
            let n' := n * 16 + d in
            if big <=? n' then (0, i, false)
            else xtoi_loop fuel' s i0 n' (S i)
        | None => done
        end
      else done
  end.

Definition xtoi (s : string) (i0 : nat) : Z * nat * bool :=
  xtoi_loop (S (len s)) s i0 0 i0.

Definition v4InV6Prefix : list Z := [0; 0; 0; 0; 0; 0; 0; 0; 0; 0; 255; 255].

(** [net.IPv4(a, b, c, d)]: the 16-byte form of a.b.c.d. *)
Definition IPv4 (a b c d : Z) : IP := (v4InV6Prefix ++ [a; b; c; d])%list.

(** [parseIPv4]: d.d.d.d, the loop over the four octets. *)
Fixpoint parseIPv4_loop (todo : nat) (s : string) (p : list Z) (i : nat) (j : nat)
  : option (list Z * nat) :=
  match todo with
  | O => Some (p, i)
  | S todo' =>
      if Nat.leb (len s) i then None
      else
        let sep_ok := if Nat.ltb 0 j then at_ s i =? 46 else true in
        if negb sep_ok then None
        else
          let i := if Nat.ltb 0 j then S i else i in
          let '(n, i, ok) := dtoi s i in
          if negb ok || (255 <? n) then None
          else parseIPv4_loop todo' s (store p j (byte n)) i (S j)
  end.

Definition parseIPv4 (s : string) : option IP :=
  match parseIPv4_loop IPv4len s [0; 0; 0; 0] 0 0 with
  | None => None
  | Some (p, i) =>
      if negb (Nat.eqb i (len s)) then None
      else Some (IPv4 (load p 0) (load p 1) (load p 2) (load p 3))
  end.

(** The state of the loop of [parseIPv6]: the address being filled, the
    position of the ellipsis in it (-1 when there is none), the index in
    the string and the index in the address. *)
Record v6state := { v6ip : list Z; ellipsis : Z; v6i : nat; v6j : nat }.

Fixpoint parseIPv6_loop (fuel : nat) (s : string) (st : v6state) : option v6state :=
  match fuel with
  | O => Some st
  | S fuel' =>
      let ip := v6ip st in
      let i := v6i st in
      let j := v6j st in
      if Nat.leb IPv6len j then Some st
      else
        let '(n, i1, ok) := xtoi s i in
        if negb ok || (65535 <? n) then None
        else if Nat.ltb i1 (len s) && (at_ s i1 =? 46) then
          (* a trailing dotted quad *)
          if (ellipsis st <? 0) && negb (Nat.eqb j (IPv6len - IPv4len)) then None
          else if Nat.ltb IPv6len (j + IPv4len) then None
          else
            match parseIPv4 (from s i) with
            | None => None
            | Some ip4 =>
                let ip := store ip j (load ip4 12) in
                let ip := store ip (j + 1) (load ip4 13) in
                let ip := store ip (j + 2) (load ip4 14) in
                let ip := store ip (j + 3) (load ip4 15) in
                Some {| v6ip := ip; ellipsis := ellipsis st;
                        v6i := len s; v6j := (j + IPv4len)%nat |}
            end
        else
          (* save this 16-bit chunk *)
          let ip := store ip j (byte (Z.shiftr n 8)) in
          let ip := store ip (j + 1) (byte n) in
          let j := (j + 2)%nat in
          let i := i1 in
          if Nat.eqb i (len s) then
            Some {| v6ip := ip; ellipsis := ellipsis st; v6i := i; v6j := j |}
          else if negb (at_ s i =? 58) || Nat.eqb (i + 1) (len s) then None
          else
            let i := S i in
            if at_ s i =? 58 then
              if 0 <=? ellipsis st then None
              else
                let i := S i in
                let st' := {| v6ip := ip; ellipsis := Z.of_nat j; v6i := i; v6j := j |} in
                if Nat.eqb i (len s) then Some st'
                else parseIPv6_loop fuel' s st'
            else
              parseIPv6_loop fuel' s
                {| v6ip := ip; ellipsis := ellipsis st; v6i := i; v6j := j |}
  end.

(** The two loops that expand the ellipsis: move the groups after it to the
    end, then clear the gap. Both run downwards. *)
Definition expand_ellipsis (ip : list Z) (e j : nat) : list Z :=
  let n := (IPv6len - j)%nat in
  let ip := fold_left (fun ip k => store ip (k + n) (load ip k))
                      (rev (seq e (j - e))) ip in
  fold_left (fun ip k => store ip k 0) (rev (seq e n)) ip.

Definition parseIPv6 (s : string) : option IP :=
  let ip0 := repeat 0 IPv6len in
  let lead := Nat.leb 2 (len s) && (at_ s 0 =? 58) && (at_ s 1 =? 58) in
  if lead && Nat.eqb 2 (len s) then Some ip0
  else
    let st0 := if lead
               then {| v6ip := ip0; ellipsis := 0; v6i := 2%nat; v6j := 0%nat |}
               else {| v6ip := ip0; ellipsis := -1; v6i := 0%nat; v6j := 0%nat |} in
    match parseIPv6_loop (S IPv6len) s st0 with
    | None => None
    | Some st =>
        if negb (Nat.eqb (v6i st) (len s)) then None
        else if Nat.ltb (v6j st) IPv6len then
          if ellipsis st <? 0 then None
          else Some (expand_ellipsis (v6ip st) (Z.to_nat (ellipsis st)) (v6j st))
        else if 0 <=? ellipsis st then None
        else Some (v6ip st)
    end.

(** [net.ParseIP]: the first '.' or ':' of the string selects the parser. *)
Fixpoint ParseIP_scan (fuel : nat) (s : string) (i : nat) : option IP :=
  match fuel with
  | O => None
  | S fuel' =>
      if Nat.leb (len s) i then None
      else if at_ s i =? 46 then parseIPv4 s
      else if at_ s i =? 58 then parseIPv6 s
      else ParseIP_scan fuel' s (S i)
  end.

Definition ParseIP (s : string) : option IP := ParseIP_scan (S (len s)) s 0.

Definition isZeros (p : list Z) : bool := forallb (fun b => b =? 0) p.

(** [ip.To4()]: the 4-byte form of an IPv4 address, [None] for any other. *)
Definition To4 (ip : IP) : option IP :=
  if Nat.eqb (List.length ip) IPv4len then Some ip
  else if Nat.eqb (List.length ip) IPv6len
          && isZeros (firstn 10 ip)
          && (load ip 10 =? 255) && (load ip 11 =? 255)
       then Some (firstn 4 (skipn 12 ip))
       else None.

End net.

(** ** Errors *)

(** The error values the function meets: an [Errno] of package syscall, the
    value of [errors.New], and the operation errors of packages net, os and
    dns, which wrap a cause. *)
Inductive error : Type :=
| Errno (e : Z)
| errorString (s : string)
| OpError (op : string) (cause : error).

Module errors.
Definition New (text : string) : error := errorString text.
End errors.

(** ** Package dns: messages *)

Module dns.

Definition TypeA : Z := 1.
Definition TypeCNAME : Z := 5.
Definition TypeAAAA : Z := 28.
Definition ClassINET : Z := 1.

Record RR_Header := { Name : string; Rrtype : Z; Class : Z; Ttl : Z }.

(** A resource record is one of several struct types behind the interface
    [RR]; the type assertion of the caller tells them apart. *)
Inductive RR : Type :=
| A (Hdr : RR_Header) (a : net.IP)
| AAAA (Hdr : RR_Header) (aaaa : net.IP)
| CNAME (Hdr : RR_Header) (Target : string)
| RFC3597 (Hdr : RR_Header) (Rdata : string).

Record Question := { Qname : string; Qtype : Z; Qclass : Z }.

Record Msg := {
  Id : Z;
  RecursionDesired : bool;
  Questions : list Question;
  Answer : list RR
}.

(** [new(dns.Msg)] *)
Definition new_Msg : Msg :=
  {| Id := 0; RecursionDesired := false; Questions := []; Answer := [] |}.

Definition IsFqdn (s : string) : bool :=
  match String.length s with
  | O => false
  | S l => net.at_ s l =? 46
  end.

Definition Fqdn (s : string) : string :=
  if IsFqdn s then s else (s ++ ".")%string.

(** [m.SetQuestion(z, t)], with the fresh message id it draws. *)
Definition SetQuestion (m : Msg) (id : Z) (z : string) (t : Z) : Msg :=
  {| Id := id; RecursionDesired := true;
     Questions := [ {| Qname := z; Qtype := t; Qclass := ClassINET |} ];
     Answer := Answer m |}.

Definition set_RecursionDesired (m : Msg) (b : bool) : Msg :=
  {| Id := Id m; RecursionDesired := b;
     Questions := Questions m; Answer := Answer m |}.

End dns.

(** ** Package syscall and the dial configuration *)

Module syscall.
Definition AF_INET : Z := 2.
Definition SOCK_DGRAM : Z := 2.
Record SockaddrInet4 := { Port : Z; Addr : list Z }.
End syscall.

Definition DNS_PORT : Z := 53.

(** The interface held by [config.BindToDeviceProvider]. *)
Record DeviceBinder := { BindToDevice : Z -> option error }.

(** The fields of [DialConfig] that the resolver reads. *)
Record DialConfig := {
  BindToDeviceProvider : option DeviceBinder;
  BindToDeviceDnsServer : string;
  ConnectTimeout : Z
}.

(** ** The world outside the function

    What the kernel, the network and the platform resolver answer. The
    function cannot influence these answers; it only observes them. *)
Record World := {
  syscall_Socket : Z -> Z -> Z -> Z + error;
  syscall_Connect : Z -> syscall.SockaddrInet4 -> option error;
  (** [net.FileConn] duplicates the descriptor of the file. *)
  net_FileConn : Z -> Z + error;
  (** the successive readings of the clock, in nanoseconds *)
  time_Now : nat -> Z;
  dns_Id : Z;
  conn_WriteMsg : dns.Msg -> option error;
  (** what is read back after the query [q] was handed to the connection *)
  conn_ReadMsg : dns.Msg -> dns.Msg + error;
  (** what the system resolver answers for a name that is no literal address *)
  net_LookupIP : string -> option (list net.IP) * option error
}.

(** ** Observable events *)

Inductive closer : Type := by_syscall | by_File | by_Conn.

Inductive Event : Type :=
| ESocket (domain typ proto : Z) (r : Z + error)
| EBindToDevice (fd : Z) (r : option error)
| EConnect (fd : Z) (sa : syscall.SockaddrInet4) (r : option error)
| ENewFile (fd : Z)
| EFileConn (fd : Z) (r : Z + error)
| ESetReadDeadline (conn : Z) (t : Z)
| ESetWriteDeadline (conn : Z) (t : Z)
| EWriteMsg (conn : Z) (m : dns.Msg) (r : option error)
| EReadMsg (conn : Z) (r : dns.Msg + error)
| EClose (who : closer) (fd : Z)
| ELookupIP (host : string).

(** ** A Go function body: state, early return, deferred calls *)

Inductive Deferred : Type :=
| defer_syscall_Close (fd : Z)
| defer_file_Close (fd : Z)
| defer_dnsConn_Close (conn : Z).

Record State := {
  trace : list Event;
  deferred : list Deferred;    (* most recent first *)
  clock : nat                  (* readings of the clock taken so far *)
}.

Definition start : State := {| trace := []; deferred := []; clock := O |}.

(** How a call ends: with its two results, or in a run-time panic. *)
Inductive Outcome : Type :=
| Returns (addrs : option (list net.IP)) (err : option error)
| Panics (msg : string).

Inductive Flow (T : Type) : Type :=
| Next (x : T)
| Exit (o : Outcome).
Arguments Next {T} x.
Arguments Exit {T} o.

Definition Fn (T : Type) : Type := State -> Flow T * State.

Definition ret {T} (x : T) : Fn T := fun st => (Next x, st).

Definition bind {T U} (c : Fn T) (k : T -> Fn U) : Fn U :=
  fun st =>
    match c st with
    | (Next x, st') => k x st'
    | (Exit o, st') => (Exit o, st')
    end.

Declare Scope fn_scope.
Delimit Scope fn_scope with fn.
Notation "x <- c ;; k" := (bind c (fun x => k))
  (at level 100, c at next level, right associativity) : fn_scope.
Notation "c ;; k" := (bind c (fun _ => k))
  (at level 100, right associativity) : fn_scope.
Local Open Scope fn_scope.

Definition emit (e : Event) : Fn unit :=
  fun st => (Next tt, {| trace := (trace st ++ [e])%list;
                         deferred := deferred st; clock := clock st |}).

Definition defer (d : Deferred) : Fn unit :=
  fun st => (Next tt, {| trace := trace st;
                         deferred := d :: deferred st; clock := clock st |}).

Definition return_ {T} (addrs : option (list net.IP)) (err : option error) : Fn T :=
  fun st => (Exit (Returns addrs err), st).

Definition panic {T} (msg : string) : Fn T :=
  fun st => (Exit (Panics msg), st).

(** A deferred close: the descriptor it closes and on whose behalf.
    [os.NewFile] wraps the descriptor it is given, so closing the file closes
    that very descriptor; the connection of [net.FileConn] owns a duplicate. *)
Definition run_deferred (d : Deferred) : Event :=
  match d with
  | defer_syscall_Close fd => EClose by_syscall fd
  | defer_file_Close fd => EClose by_File fd
  | defer_dnsConn_Close conn => EClose by_Conn conn
  end.

(** A call runs the body, then the deferred calls, last registered first. *)
Definition call (body : Fn Empty_set) : Outcome * list Event :=
  match body start with
  | (Exit o, st) => (o, (trace st ++ map run_deferred (deferred st))%list)
  | (Next x, _) => match x with end
  end.

(** ** The program *)

Section Program.

(** [ContextError] is declared elsewhere in package psiphon. The function
    passes it the error and nothing else, so it is a parameter here. *)
Variable ContextError : error -> error.

Variable w : World.

(** The calls that leave the function, each recorded with its answer. *)

Definition Socket (domain typ proto : Z) : Fn (Z + error) :=
  let r := syscall_Socket w domain typ proto in
  emit (ESocket domain typ proto r) ;; ret r.

Definition Connect (fd : Z) (sa : syscall.SockaddrInet4) : Fn (option error) :=
  let r := syscall_Connect w fd sa in
  emit (EConnect fd sa r) ;; ret r.

Definition os_NewFile (fd : Z) : Fn Z :=
  emit (ENewFile fd) ;; ret fd.

Definition FileConn (file : Z) : Fn (Z + error) :=
  let r := net_FileConn w file in
  emit (EFileConn file r) ;; ret r.

Definition Now : Fn Z :=
  fun st => (Next (time_Now w (clock st)),
             {| trace := trace st; deferred := deferred st; clock := S (clock st) |}).

Definition SetReadDeadline (conn : Z) (t : Z) : Fn unit :=
  emit (ESetReadDeadline conn t).

Definition SetWriteDeadline (conn : Z) (t : Z) : Fn unit :=
  emit (ESetWriteDeadline conn t).

Definition WriteMsg (conn : Z) (m : dns.Msg) : Fn (option error) :=
  let r := conn_WriteMsg w m in
  emit (EWriteMsg conn m r) ;; ret r.

Definition ReadMsg (conn : Z) (sent : dns.Msg) : Fn (dns.Msg + error) :=
  let r := conn_ReadMsg w sent in
  emit (EReadMsg conn r) ;; ret r.

(** A method call on the interface value; on a nil interface it panics. *)
Definition call_BindToDevice (p : option DeviceBinder) (fd : Z) : Fn (option error) :=
  match p with
  | None => panic "invalid memory address or nil pointer dereference"
  | Some b =>
      let r := BindToDevice b fd in
      emit (EBindToDevice fd r) ;; ret r
  end.

(** The loop over [response.Answer]: one [append] per record of type [*dns.A]. *)
Definition collect (answers : list dns.RR) : list net.IP :=
  fold_left
    (fun addrs answer =>
       match answer with
       | dns.A _ a => (addrs ++ [a])%list
       | _ => addrs
       end)
    answers [].

Definition bindLookupIP_body (host : string) (config : DialConfig) : Fn Empty_set :=
  (* When the input host is an IP address, echo it back *)
  match net.ParseIP host with
  | Some ipAddr => return_ (Some [ipAddr]) None
  | None =>
  r <- Socket syscall.AF_INET syscall.SOCK_DGRAM 0 ;;
  match r with
  | inr err => return_ None (Some (ContextError err))
  | inl socketFd =>
  defer (defer_syscall_Close socketFd) ;;
  _ <- call_BindToDevice (BindToDeviceProvider config) socketFd ;;
  (* config.BindToDeviceDnsServer must be an IP address *)
  match net.ParseIP (BindToDeviceDnsServer config) with
  | None => return_ None (Some (ContextError (errors.New "invalid IP address")))
  | Some ipAddr =>
  let ip := net.copy [0; 0; 0; 0]
              (match net.To4 ipAddr with Some p => p | None => [] end) in
  let sockAddr := {| syscall.Port := DNS_PORT; syscall.Addr := ip |} in
  err <- Connect socketFd sockAddr ;;
  match err with
  | Some err => return_ None (Some (ContextError err))
  | None =>
  (* Convert the syscall socket to a net.Conn *)
  file <- os_NewFile socketFd ;;
  defer (defer_file_Close file) ;;
  r <- FileConn file ;;
  match r with
  | inr err => return_ None (Some (ContextError err))
  | inl conn =>
  (* Set DNS query timeouts *)
  (if negb (ConnectTimeout config =? 0) then
     t <- Now ;;
     SetReadDeadline conn (t + ConnectTimeout config) ;;
     t <- Now ;;
     SetWriteDeadline conn (t + ConnectTimeout config)
   else ret tt) ;;
  (* Make the DNS query *)
  let dnsConn := conn in
  defer (defer_dnsConn_Close dnsConn) ;;
  let query := dns.new_Msg in
  let query := dns.SetQuestion query (dns_Id w) (dns.Fqdn host) dns.TypeA in
  let query := dns.set_RecursionDesired query true in
  _ <- WriteMsg dnsConn query ;;
  (* Process the response *)
  r <- ReadMsg dnsConn query ;;
  match r with
  | inr err => return_ None (Some (ContextError err))
  | inl response => return_ (Some (collect (dns.Answer response))) None
  end end end end end end.

Definition bindLookupIP (host : string) (config : DialConfig) : Outcome * list Event :=
  call (bindLookupIP_body host config).

(** [net.LookupIP], the platform resolver of package net. A host that is a
    literal IP address is answered at once with that address, and nothing is
    looked up; any other name is asked of the system. *)
Definition platform_LookupIP (host : string) : Fn Empty_set :=
  match net.ParseIP host with
  | Some ipAddr => return_ (Some [ipAddr]) None
  | None =>
      emit (ELookupIP host) ;;
      let '(addrs, err) := net_LookupIP w host in
      return_ addrs err
  end.

Definition LookupIP (host : string) (config : DialConfig) : Outcome * list Event :=
  match BindToDeviceProvider config with
  | Some _ => bindLookupIP host config
  | None => call (platform_LookupIP host)
  end.

End Program.

Arguments bindLookupIP ContextError w host config : assert.
Arguments LookupIP ContextError w host config : assert.

(** ** Reading a trace *)

Definition is_socket (e : Event) : bool :=
  match e with ESocket _ _ _ _ => true | _ => false end.
Definition is_bind (e : Event) : bool :=
  match e with EBindToDevice _ _ => true | _ => false end.
Definition is_connect (e : Event) : bool :=
  match e with EConnect _ _ _ => true | _ => false end.
Definition is_deadline (e : Event) : bool :=
  match e with ESetReadDeadline _ _ | ESetWriteDeadline _ _ => true | _ => false end.
Definition is_write (e : Event) : bool :=
  match e with EWriteMsg _ _ _ => true | _ => false end.
Definition is_read (e : Event) : bool :=
  match e with EReadMsg _ _ => true | _ => false end.
Definition closes (fd : Z) (e : Event) : bool :=
  match e with EClose _ fd' => fd' =? fd | _ => false end.
Definition opens (fd : Z) (e : Event) : bool :=
  match e with
  | ESocket _ _ _ (inl fd') => fd' =? fd
  | EFileConn _ (inl fd') => fd' =? fd
  | _ => false
  end.

Definition count (p : Event -> bool) (tr : list Event) : nat :=
  List.length (filter p tr).

Definition none (p : Event -> bool) (tr : list Event) : Prop :=
  Forall (fun e => p e = false) tr.

(** The kernel's view of a trace: the descriptors open at its end, and the
    number of closes that hit a descriptor that was not open (EBADF). *)
Fixpoint descriptors (tr : list Event) (open : list Z) (ebadf : nat) : list Z * nat :=
  match tr with
  | [] => (open, ebadf)
  | e :: tr' =>
      match e with
      | ESocket _ _ _ (inl fd) | EFileConn _ (inl fd) =>
          descriptors tr' (fd :: open) ebadf
      | EClose _ fd =>
          if existsb (Z.eqb fd) open
          then descriptors tr' (filter (fun x => negb (x =? fd)) open) ebadf
          else descriptors tr' open (S ebadf)
      | _ => descriptors tr' open ebadf
      end
  end.

(** ** The paths through [bindLookupIP] *)

(** The destination of the connect, as lines 75-77 build it. *)
Definition sockAddr_of (ipAddr : net.IP) : syscall.SockaddrInet4 :=
  {| syscall.Port := DNS_PORT;
     syscall.Addr := net.copy [0; 0; 0; 0]
                       (match net.To4 ipAddr with Some p => p | None => [] end) |}.

(** The query of lines 102-104. *)
Definition query_of (w : World) (host : string) : dns.Msg :=
  dns.set_RecursionDesired
    (dns.SetQuestion dns.new_Msg (dns_Id w) (dns.Fqdn host) dns.TypeA) true.

(** The deadlines of lines 93-96. *)
Definition deadlines_of (w : World) (config : DialConfig) (conn : Z) : list Event :=
  if ConnectTimeout config =? 0 then []
  else [ESetReadDeadline conn (time_Now w 0 + ConnectTimeout config);
        ESetWriteDeadline conn (time_Now w 1 + ConnectTimeout config)].

(** The bound path got its socket: the host is no literal, the provider is
    there, and the kernel handed out descriptor [fd]. *)
Definition socket_created (w : World) (host : string) (config : DialConfig)
    (b : DeviceBinder) (fd : Z) : Prop :=
  net.ParseIP host = None /\
  BindToDeviceProvider config = Some b /\
  syscall_Socket w syscall.AF_INET syscall.SOCK_DGRAM 0 = inl fd.

(** ... and the socket was connected to the resolver address [ipAddr]. *)
Definition socket_connected (w : World) (host : string) (config : DialConfig)
    (b : DeviceBinder) (fd : Z) (ipAddr : net.IP) : Prop :=
  socket_created w host config b fd /\
  net.ParseIP (BindToDeviceDnsServer config) = Some ipAddr /\
  syscall_Connect w fd (sockAddr_of ipAddr) = None.

(** ... and wrapped as the connection [conn]. *)
Definition conn_wrapped (w : World) (host : string) (config : DialConfig)
    (b : DeviceBinder) (fd : Z) (ipAddr : net.IP) (conn : Z) : Prop :=
  socket_connected w host config b fd ipAddr /\
  net_FileConn w fd = inl conn.

(** ** What a call yields, stated apart from the program *)

(** The results of the call once the response was read, or was not. *)
Definition after_read (ContextError : error -> error) (r : dns.Msg + error) : Outcome :=
  match r with
  | inl response => Returns (Some (collect (dns.Answer response))) None
  | inr err => Returns None (Some (ContextError err))
  end.

(** Every call takes exactly one of the paths. *)
Inductive Path (w : World) (host : string) (config : DialConfig) : Prop :=
| path_literal ipAddr :
    net.ParseIP host = Some ipAddr -> Path w host config
| path_socket_fails err :
    net.ParseIP host = None ->
    syscall_Socket w syscall.AF_INET syscall.SOCK_DGRAM 0 = inr err ->
    Path w host config
| path_nil_provider fd :
    net.ParseIP host = None ->
    syscall_Socket w syscall.AF_INET syscall.SOCK_DGRAM 0 = inl fd ->
    BindToDeviceProvider config = None ->
    Path w host config
| path_invalid_resolver b fd :
    socket_created w host config b fd ->
    net.ParseIP (BindToDeviceDnsServer config) = None ->
    Path w host config
| path_connect_fails b fd ipAddr err :
    socket_created w host config b fd ->
    net.ParseIP (BindToDeviceDnsServer config) = Some ipAddr ->
    syscall_Connect w fd (sockAddr_of ipAddr) = Some err ->
    Path w host config
| path_FileConn_fails b fd ipAddr err :
    socket_connected w host config b fd ipAddr ->
    net_FileConn w fd = inr err ->
    Path w host config
| path_exchange b fd ipAddr conn :
    conn_wrapped w host config b fd ipAddr conn ->
    Path w host config.

(** The step at which a run fails, with the error which that step produced.
    Each step is tried only when all the steps before it succeeded, so the
    conditions of the earlier steps are part of each case. *)
Inductive failed_step (w : World) (host : string) (config : DialConfig)
  : error -> Prop :=
| socket_failed cause :
    net.ParseIP host = None ->
    syscall_Socket w syscall.AF_INET syscall.SOCK_DGRAM 0 = inr cause ->
    failed_step w host config cause
| resolver_invalid b fd :
    socket_created w host config b fd ->
    net.ParseIP (BindToDeviceDnsServer config) = None ->
    failed_step w host config (errors.New "invalid IP address")
| connect_failed b fd ipAddr cause :
    socket_created w host config b fd ->
    net.ParseIP (BindToDeviceDnsServer config) = Some ipAddr ->
    syscall_Connect w fd (sockAddr_of ipAddr) = Some cause ->
    failed_step w host config cause
| FileConn_failed b fd ipAddr cause :
    socket_connected w host config b fd ipAddr ->
    net_FileConn w fd = inr cause ->
    failed_step w host config cause
| read_failed b fd ipAddr conn cause :
    conn_wrapped w host config b fd ipAddr conn ->
    conn_ReadMsg w (query_of w host) = inr cause ->
    failed_step w host config cause.


(** The addresses of the type-A records of an answer section, in the order in
    which those records appear; a record of any other type contributes none. *)
Definition A_addresses (answers : list dns.RR) : list net.IP :=
  flat_map (fun rr => match rr with dns.A _ a => [a] | _ => [] end) answers.

Definition is_A (rr : dns.RR) : bool :=
  match rr with dns.A _ _ => true | _ => false end.

(** The configuration with another device binder in place. *)
Definition with_binder (config : DialConfig) (b : DeviceBinder) : DialConfig :=
  {| BindToDeviceProvider := Some b;
     BindToDeviceDnsServer := BindToDeviceDnsServer config;
     ConnectTimeout := ConnectTimeout config |}.

(** ** Concrete worlds and configurations *)

Module Sample.

(** Modelled from the spec: [ContextError] of package psiphon, which is not
    part of this file; the spec says it enriches an error with call context.
    This instance tags the error with the calling function. It serves to run
    the model on concrete inputs; the theorems hold for every [ContextError]. *)
Definition ContextError (err : error) : error :=
  OpError "psiphon.bindLookupIP" err.

Definition binder (r : option error) : DeviceBinder :=
  {| BindToDevice := fun _ => r |}.

Definition bound (b : DeviceBinder) (resolver : string) (timeout : Z) : DialConfig :=
  {| BindToDeviceProvider := Some b;
     BindToDeviceDnsServer := resolver;
     ConnectTimeout := timeout |}.

Definition unbound : DialConfig :=
  {| BindToDeviceProvider := None;
     BindToDeviceDnsServer := "8.8.8.8";
     ConnectTimeout := 0 |}.

Definition header (name : string) (rrtype : Z) : dns.RR_Header :=
  {| dns.Name := name; dns.Rrtype := rrtype; dns.Class := dns.ClassINET; dns.Ttl := 300 |}.

(** A response with a CNAME record followed by two A records. *)
Definition response : dns.Msg :=
  {| dns.Id := 7; dns.RecursionDesired := true; dns.Questions := [];
     dns.Answer :=
       [dns.CNAME (header "www.example.com." dns.TypeCNAME) "example.com.";
        dns.A (header "example.com." dns.TypeA) [93; 184; 216; 34];
        dns.A (header "example.com." dns.TypeA) [93; 184; 216; 35]] |}.

Definition EMFILE : error := Errno 24.
Definition EPERM : error := Errno 1.
Definition ENETUNREACH : error := Errno 101.
Definition timeout : error := OpError "read" (errorString "i/o timeout").

Definition world (socket : Z + error) (connect : option error) (fileconn : Z + error)
    (write : option error) (read : dns.Msg + error) : World :=
  {| syscall_Socket := fun _ _ _ => socket;
     syscall_Connect := fun _ _ => connect;
     net_FileConn := fun _ => fileconn;
     time_Now := fun n => 1000000 + Z.of_nat n;
     dns_Id := 7;
     conn_WriteMsg := fun _ => write;
     conn_ReadMsg := fun _ => read;
     net_LookupIP := fun _ => (None, Some (errorString "no such host")) |}.

(** Every step succeeds: descriptor 3 for the socket, 4 for the connection. *)
Definition healthy : World := world (inl 3) None (inl 4) None (inl response).

End Sample.

(** ** The order of the steps *)

Definition is_close (e : Event) : bool :=
  match e with EClose _ _ => true | _ => false end.

(** The place of an event in the text of [bindLookupIP]; the deferred closes
    come last. *)
Definition stage (e : Event) : nat :=
  match e with
  | ESocket _ _ _ _ => 0
  | EBindToDevice _ _ => 1
  | EConnect _ _ _ => 2
  | ENewFile _ => 3
  | EFileConn _ _ => 4
  | ESetReadDeadline _ _ => 5
  | ESetWriteDeadline _ _ => 6
  | EWriteMsg _ _ _ => 7
  | EReadMsg _ _ => 8
  | EClose _ _ => 9
  | ELookupIP _ => 10
  end%nat.

(** Each event is at a later stage than the one before it, except that a
    close may follow a close. *)
Fixpoint in_order (tr : list Event) : bool :=
  match tr with
  | [] => true
  | e1 :: rest =>
      match rest with
      | [] => true
      | e2 :: _ =>
          (Nat.ltb (stage e1) (stage e2) || (is_close e1 && is_close e2))
          && in_order rest
      end
  end.

(** The descriptor an event works on, for the events that are handed one. *)
Definition operates_on (e : Event) : option Z :=
  match e with
  | ESocket _ _ _ _ => None
  | EBindToDevice fd _ => Some fd
  | EConnect fd _ _ => Some fd
  | ENewFile fd => Some fd
  | EFileConn fd _ => Some fd
  | ESetReadDeadline conn _ => Some conn
  | ESetWriteDeadline conn _ => Some conn
  | EWriteMsg conn _ _ => Some conn
  | EReadMsg conn _ => Some conn
  | EClose _ fd => Some fd
  | ELookupIP _ => None
  end.

(** The descriptors that are open as a trace goes on, starting from [open]:
    [true] when every event that is handed a descriptor, a close apart, is
    handed one that was opened earlier in the trace and is not yet closed. *)
Fixpoint uses_open (tr : list Event) (open : list Z) : bool :=
  match tr with
  | [] => true
  | e :: tr' =>
      match e with
      | ESocket _ _ _ (inl fd) => uses_open tr' (fd :: open)
      | EFileConn file (inl conn) =>
          existsb (Z.eqb file) open && uses_open tr' (conn :: open)
      | EClose _ fd => uses_open tr' (filter (fun x => negb (x =? fd)) open)
      | _ =>
          match operates_on e with
          | Some d => existsb (Z.eqb d) open && uses_open tr' open
          | None => uses_open tr' open
          end
      end
  end.

(** ** The runs of [bindLookupIP], path by path *)

Section Paths.

Variable ContextError : error -> error.
Variable w : World.
Variables (host : string) (config : DialConfig).

Ltac enter :=
  unfold bindLookupIP, call, bindLookupIP_body.
Ltac go :=
  unfold bind, Socket, Connect, os_NewFile, FileConn, WriteMsg, ReadMsg,
    call_BindToDevice, SetReadDeadline, SetWriteDeadline, Now,
    emit, defer, ret, return_, panic, start; simpl.

Lemma run_literal ipAddr :
  net.ParseIP host = Some ipAddr ->
  bindLookupIP ContextError w host config = (Returns (Some [ipAddr]) None, []).
Proof. intros H. enter. rewrite H. reflexivity. Qed.

Lemma run_socket_fails err :
  net.ParseIP host = None ->
  syscall_Socket w syscall.AF_INET syscall.SOCK_DGRAM 0 = inr err ->
  bindLookupIP ContextError w host config =
    (Returns None (Some (ContextError err)),
     [ESocket syscall.AF_INET syscall.SOCK_DGRAM 0 (inr err)]).
Proof. intros H1 H2. enter. rewrite H1. go. rewrite H2. reflexivity. Qed.

Lemma run_nil_provider fd :
  net.ParseIP host = None ->
  syscall_Socket w syscall.AF_INET syscall.SOCK_DGRAM 0 = inl fd ->
  BindToDeviceProvider config = None ->
  bindLookupIP ContextError w host config =
    (Panics "invalid memory address or nil pointer dereference",
     [ESocket syscall.AF_INET syscall.SOCK_DGRAM 0 (inl fd);
      EClose by_syscall fd]).
Proof. intros H1 H2 H3. enter. rewrite H1. go. rewrite H2, H3. reflexivity. Qed.

Lemma run_invalid_resolver b fd :
  socket_created w host config b fd ->
  net.ParseIP (BindToDeviceDnsServer config) = None ->
  bindLookupIP ContextError w host config =
    (Returns None (Some (ContextError (errors.New "invalid IP address"))),
     [ESocket syscall.AF_INET syscall.SOCK_DGRAM 0 (inl fd);
      EBindToDevice fd (BindToDevice b fd);
      EClose by_syscall fd]).
Proof.
  intros (H1 & H2 & H3) H4. enter. rewrite H1. go. rewrite H3, H2. simpl.
  rewrite H4. reflexivity.
Qed.

Lemma run_connect_fails b fd ipAddr err :
  socket_created w host config b fd ->
  net.ParseIP (BindToDeviceDnsServer config) = Some ipAddr ->
  syscall_Connect w fd (sockAddr_of ipAddr) = Some err ->
  bindLookupIP ContextError w host config =
    (Returns None (Some (ContextError err)),
     [ESocket syscall.AF_INET syscall.SOCK_DGRAM 0 (inl fd);
      EBindToDevice fd (BindToDevice b fd);
      EConnect fd (sockAddr_of ipAddr) (Some err);
      EClose by_syscall fd]).
Proof.
  intros (H1 & H2 & H3) H4 H5. enter. rewrite H1. go. rewrite H3, H2. simpl.
  rewrite H4. simpl. fold (sockAddr_of ipAddr). rewrite H5. reflexivity.
Qed.

Lemma run_FileConn_fails b fd ipAddr err :
  socket_connected w host config b fd ipAddr ->
  net_FileConn w fd = inr err ->
  bindLookupIP ContextError w host config =
    (Returns None (Some (ContextError err)),
     [ESocket syscall.AF_INET syscall.SOCK_DGRAM 0 (inl fd);
      EBindToDevice fd (BindToDevice b fd);
      EConnect fd (sockAddr_of ipAddr) None;
      ENewFile fd;
      EFileConn fd (inr err);
      EClose by_File fd;
      EClose by_syscall fd]).
Proof.
  intros ((H1 & H2 & H3) & H4 & H5) H6. enter. rewrite H1. go. rewrite H3, H2. simpl.
  rewrite H4. simpl. fold (sockAddr_of ipAddr). rewrite H5, H6. reflexivity.
Qed.

Lemma run_exchange b fd ipAddr conn :
  conn_wrapped w host config b fd ipAddr conn ->
  bindLookupIP ContextError w host config =
    (after_read ContextError (conn_ReadMsg w (query_of w host)),
     [ESocket syscall.AF_INET syscall.SOCK_DGRAM 0 (inl fd);
      EBindToDevice fd (BindToDevice b fd);
      EConnect fd (sockAddr_of ipAddr) None;
      ENewFile fd;
      EFileConn fd (inl conn)]
     ++ deadlines_of w config conn
     ++ [EWriteMsg conn (query_of w host) (conn_WriteMsg w (query_of w host));
         EReadMsg conn (conn_ReadMsg w (query_of w host));
         EClose by_Conn conn;
         EClose by_File fd;
         EClose by_syscall fd])%list.
Proof.
  intros (((H1 & H2 & H3) & H4 & H5) & H6). enter. rewrite H1. go. rewrite H3, H2. simpl.
  rewrite H4. simpl. fold (sockAddr_of ipAddr). rewrite H5, H6.
  unfold deadlines_of, after_read. fold (query_of w host).
  destruct (ConnectTimeout config =? 0); simpl;
    destruct (conn_ReadMsg w (query_of w host)); reflexivity.
Qed.

End Paths.

Lemma path_total w host config : Path w host config.
Proof.
  destruct (net.ParseIP host) as [ipAddr|] eqn:Hhost.
  { eapply path_literal; eassumption. }
  destruct (syscall_Socket w syscall.AF_INET syscall.SOCK_DGRAM 0) as [fd|err] eqn:Hsock.
  2: { eapply path_socket_fails; eassumption. }
  destruct (BindToDeviceProvider config) as [b|] eqn:Hprov.
  2: { eapply path_nil_provider; eassumption. }
  assert (Hc : socket_created w host config b fd) by (repeat split; assumption).
  destruct (net.ParseIP (BindToDeviceDnsServer config)) as [ipAddr|] eqn:Hres.
  2: { eapply path_invalid_resolver; eassumption. }
  destruct (syscall_Connect w fd (sockAddr_of ipAddr)) as [err|] eqn:Hconn.
  { eapply path_connect_fails; eassumption. }
  assert (Hs : socket_connected w host config b fd ipAddr) by (repeat split; assumption).
  destruct (net_FileConn w fd) as [conn|err] eqn:Hfc.
  2: { eapply path_FileConn_fails; eassumption. }
  eapply path_exchange. split; eassumption.
Qed.

(** ** The literal shortcut *)

(** C1. A hostname that parses as a literal IP address is answered with the
    one-element list holding that address and no error, without any event: no
    socket, no network I/O, no lookup. This holds with the device-binding
    capability, where [bindLookupIP] tests the hostname first, and without it,
    where [net.LookupIP] does. *)
Theorem LookupIP_literal_host :
  forall ContextError w host config ipAddr,
    net.ParseIP host = Some ipAddr ->
    LookupIP ContextError w host config = (Returns (Some [ipAddr]) None, []).
Proof.
  intros CE w host config ipAddr Hlit. unfold LookupIP.
  destruct (BindToDeviceProvider config) as [b|].
  - now apply run_literal.
  - unfold call, platform_LookupIP. rewrite Hlit. reflexivity.
Qed.

Lemma LookupIP_literal_host_witness :
  LookupIP Sample.ContextError Sample.healthy "8.8.8.8"
    (Sample.bound (Sample.binder None) "8.8.4.4" 0)
  = (Returns (Some [net.IPv4 8 8 8 8]) None, []) /\
  LookupIP Sample.ContextError Sample.healthy "::1" Sample.unbound
  = (Returns (Some [[0; 0; 0; 0; 0; 0; 0; 0; 0; 0; 0; 0; 0; 0; 0; 1]]) None, []).
Proof.
  split.
  - exact (LookupIP_literal_host Sample.ContextError Sample.healthy "8.8.8.8"
             (Sample.bound (Sample.binder None) "8.8.4.4" 0)
             (net.IPv4 8 8 8 8) eq_refl).
  - exact (LookupIP_literal_host Sample.ContextError Sample.healthy "::1"
             Sample.unbound
             [0; 0; 0; 0; 0; 0; 0; 0; 0; 0; 0; 0; 0; 0; 0; 1] eq_refl).
Defined.

(** ** Errors and results *)

Section Results.

Variable ContextError : error -> error.
Variable w : World.
Variables (host : string) (config : DialConfig).

(** What a call returns, read off the path it takes. *)
Lemma returned_error addrs err tr :
  bindLookupIP ContextError w host config = (Returns addrs (Some err), tr) ->
  addrs = None /\
  exists cause, err = ContextError cause /\ failed_step w host config cause.
Proof.
  intros Hrun.
  destruct (path_total w host config)
    as [ip Hl | e Hh Hs | fd Hh Hs Hp | b fd Hc Hr | b fd ip e Hc Hr Hk
        | b fd ip e Hc Hf | b fd ip conn Hc].
  - rewrite (run_literal _ _ _ _ _ Hl) in Hrun. discriminate.
  - rewrite (run_socket_fails _ _ _ _ _ Hh Hs) in Hrun.
    injection Hrun as <- <- <-. split; [reflexivity|].
    exists e. split; [reflexivity|]. now apply socket_failed.
  - rewrite (run_nil_provider _ _ _ _ _ Hh Hs Hp) in Hrun. discriminate.
  - rewrite (run_invalid_resolver _ _ _ _ _ _ Hc Hr) in Hrun.
    injection Hrun as <- <- <-. split; [reflexivity|].
    eexists. split; [reflexivity|]. now apply (resolver_invalid w host config b fd).
  - rewrite (run_connect_fails _ _ _ _ _ _ _ _ Hc Hr Hk) in Hrun.
    injection Hrun as <- <- <-. split; [reflexivity|].
    exists e. split; [reflexivity|].
    now apply (connect_failed w host config b fd ip).
  - rewrite (run_FileConn_fails _ _ _ _ _ _ _ _ Hc Hf) in Hrun.
    injection Hrun as <- <- <-. split; [reflexivity|].
    exists e. split; [reflexivity|].
    now apply (FileConn_failed w host config b fd ip).
  - rewrite (run_exchange _ _ _ _ _ _ _ _ Hc) in Hrun.
    unfold after_read in Hrun.
    destruct (conn_ReadMsg w (query_of w host)) as [response|e] eqn:Hread;
      [discriminate|].
    injection Hrun as <- <- <-. split; [reflexivity|].
    exists e. split; [reflexivity|].
    now apply (read_failed w host config b fd ip conn).
Qed.


End Results.

(** C10. Whenever the bound path returns a non-nil error, the address list
    returned with it is nil, whichever step failed. *)
Theorem bindLookupIP_error_has_nil_addrs :
  forall ContextError w host config addrs err tr,
    bindLookupIP ContextError w host config = (Returns addrs (Some err), tr) ->
    addrs = None.
Proof.
  intros CE w host config addrs err tr Hrun.
  exact (proj1 (returned_error CE w host config addrs err tr Hrun)).
Qed.

Lemma bindLookupIP_error_has_nil_addrs_witness :
  exists addrs tr,
    bindLookupIP Sample.ContextError
      (Sample.world (inl 3) (Some Sample.ENETUNREACH) (inl 4) None (inl Sample.response))
      "example.com" (Sample.bound (Sample.binder None) "8.8.8.8" 0)
    = (Returns addrs (Some (Sample.ContextError Sample.ENETUNREACH)), tr) /\
    addrs = None.
Proof.
  eexists. eexists. split.
  - reflexivity.
  - exact (bindLookupIP_error_has_nil_addrs Sample.ContextError
             (Sample.world (inl 3) (Some Sample.ENETUNREACH) (inl 4) None
                (inl Sample.response))
             "example.com" (Sample.bound (Sample.binder None) "8.8.8.8" 0)
             None (Sample.ContextError Sample.ENETUNREACH) _ eq_refl).
Defined.




(** Two lookups, of example.com and of example.org, that fail at the socket
    creation surface one and the same error. *)
Lemma same_error_for_two_hosts ContextError config :
  let w := Sample.world (inr Sample.EMFILE) None (inl 4) None (inl Sample.response) in
  fst (bindLookupIP ContextError w "example.com" config)
    = Returns None (Some (ContextError Sample.EMFILE)) /\
  fst (bindLookupIP ContextError w "example.org" config)
    = Returns None (Some (ContextError Sample.EMFILE)).
Proof.
  intros w. split.
  - rewrite (run_socket_fails ContextError w "example.com" config Sample.EMFILE);
      reflexivity.
  - rewrite (run_socket_fails ContextError w "example.org" config Sample.EMFILE);
      reflexivity.
Qed.


(** ** The answer section *)

Lemma collect_from (answers : list dns.RR) : forall acc,
  fold_left
    (fun addrs answer =>
       match answer with
       | dns.A _ a => (addrs ++ [a])%list
       | _ => addrs
       end)
    answers acc
  = (acc ++ A_addresses answers)%list.
Proof.
  induction answers as [|rr rest IH]; intros acc; simpl.
  - now rewrite app_nil_r.
  - destruct rr; rewrite IH; simpl; try reflexivity.
    now rewrite <- app_assoc.
Qed.

Lemma collect_A_addresses answers : collect answers = A_addresses answers.
Proof. unfold collect. now rewrite collect_from. Qed.

Lemma A_addresses_app l1 l2 :
  A_addresses (l1 ++ l2) = (A_addresses l1 ++ A_addresses l2)%list.
Proof. unfold A_addresses. apply flat_map_app. Qed.

Lemma A_addresses_none answers :
  (forall rr, In rr answers -> is_A rr = false) -> A_addresses answers = [].
Proof.
  induction answers as [|rr rest IH]; intros Hno; simpl; [reflexivity|].
  assert (Hrr : is_A rr = false) by (apply Hno; now left).
  destruct rr; try discriminate; simpl; apply IH; intros; apply Hno; now right.
Qed.

Lemma A_addresses_In a answers :
  In a (A_addresses answers) <-> exists hdr, In (dns.A hdr a) answers.
Proof.
  unfold A_addresses. rewrite in_flat_map. split.
  - intros [rr [Hin Ha]]. destruct rr; simpl in Ha; try contradiction.
    destruct Ha as [<- | []]. eauto.
  - intros [hdr Hin]. exists (dns.A hdr a). split; [assumption | now left].
Qed.

(** C5. When the exchange succeeds, the call returns, with no error, exactly
    the addresses of the type-A answer records of the response in response
    order; records of any other type are skipped; and a response without a
    type-A record yields the empty, non-nil list with no error. *)
Theorem bindLookupIP_returns_A_records_in_order :
  forall ContextError w host config b fd ipAddr conn response,
    conn_wrapped w host config b fd ipAddr conn ->
    conn_ReadMsg w (query_of w host) = inl response ->
    fst (bindLookupIP ContextError w host config)
      = Returns (Some (A_addresses (dns.Answer response))) None /\
    (forall skipped_before a skipped_after hdr,
       dns.Answer response = (skipped_before ++ dns.A hdr a :: skipped_after)%list ->
       A_addresses (dns.Answer response)
         = (A_addresses skipped_before ++ a :: A_addresses skipped_after)%list) /\
    ((forall rr, In rr (dns.Answer response) -> is_A rr = false) ->
     fst (bindLookupIP ContextError w host config) = Returns (Some []) None).
Proof.
  intros CE w host config b fd ipAddr conn response Hpath Hread.
  assert (Hrun : fst (bindLookupIP CE w host config)
                 = Returns (Some (A_addresses (dns.Answer response))) None).
  { rewrite (run_exchange CE w host config b fd ipAddr conn Hpath). simpl.
    rewrite Hread. simpl. now rewrite collect_A_addresses. }
  split; [exact Hrun|]. split.
  - intros l1 a l2 hdr Heq. rewrite Heq, A_addresses_app. reflexivity.
  - intros Hno. rewrite Hrun. now rewrite (A_addresses_none _ Hno).
Qed.

Lemma sample_conn_wrapped resolver ipAddr timeout write read :
  net.ParseIP resolver = Some ipAddr ->
  conn_wrapped (Sample.world (inl 3) None (inl 4) write read) "example.com"
    (Sample.bound (Sample.binder None) resolver timeout)
    (Sample.binder None) 3 ipAddr 4.
Proof. intros H. repeat split. exact H. Defined.

Lemma bindLookupIP_returns_A_records_in_order_witness :
  fst (bindLookupIP Sample.ContextError Sample.healthy "example.com"
         (Sample.bound (Sample.binder None) "8.8.8.8" 5000))
  = Returns (Some [[93; 184; 216; 34]; [93; 184; 216; 35]]) None.
Proof.
  exact (proj1 (bindLookupIP_returns_A_records_in_order Sample.ContextError
                  Sample.healthy "example.com"
                  (Sample.bound (Sample.binder None) "8.8.8.8" 5000)
                  (Sample.binder None) 3 (net.IPv4 8 8 8 8) 4 Sample.response
                  (sample_conn_wrapped "8.8.8.8" (net.IPv4 8 8 8 8) 5000 None
                     (inl Sample.response) eq_refl)
                  eq_refl)).
Defined.

(** ** The resolver address *)

(** On the bound path, once the socket is created, a configured resolver
    address that does not parse as a literal IP address, of either family,
    makes the lookup fail with the error "invalid IP address" wrapped by
    [ContextError]; no connect is attempted, and the socket is closed once. *)
Theorem bindLookupIP_rejects_unparsable_resolver :
  forall ContextError w host config b fd,
    socket_created w host config b fd ->
    net.ParseIP (BindToDeviceDnsServer config) = None ->
    fst (bindLookupIP ContextError w host config)
      = Returns None (Some (ContextError (errors.New "invalid IP address"))) /\
    none is_connect (snd (bindLookupIP ContextError w host config)) /\
    count (closes fd) (snd (bindLookupIP ContextError w host config)) = 1%nat.
Proof.
  intros CE w host config b fd Hsock Hres.
  rewrite (run_invalid_resolver CE w host config b fd Hsock Hres). simpl.
  split; [reflexivity|]. split.
  - repeat constructor.
  - unfold count. simpl. now rewrite Z.eqb_refl.
Qed.

Lemma bindLookupIP_rejects_unparsable_resolver_witness :
  fst (bindLookupIP Sample.ContextError Sample.healthy "example.com"
         (Sample.bound (Sample.binder None) "dns.google" 0))
  = Returns None (Some (Sample.ContextError (errors.New "invalid IP address"))).
Proof.
  exact (proj1 (bindLookupIP_rejects_unparsable_resolver Sample.ContextError
                  Sample.healthy "example.com"
                  (Sample.bound (Sample.binder None) "dns.google" 0)
                  (Sample.binder None) 3
                  (conj eq_refl (conj eq_refl eq_refl)) eq_refl)).
Defined.

(** C3, on the code. The resolver address "2001:4860:4860::8888" is no literal
    IPv4 address. The lookup does not fail with "invalid IP address":
    [net.ParseIP] accepts the string, the check of line 70 passes, [To4]
    yields nothing, and the socket is connected to 0.0.0.0, port 53, where the
    query is sent instead of the configured resolver; the call goes on to
    return what is answered there. *)
Theorem bindLookupIP_IPv6_resolver_not_rejected :
  net.parseIPv4 "2001:4860:4860::8888" = None /\
  bindLookupIP Sample.ContextError Sample.healthy "example.com"
    (Sample.bound (Sample.binder None) "2001:4860:4860::8888" 0)
  = (Returns (Some [[93; 184; 216; 34]; [93; 184; 216; 35]]) None,
     [ESocket 2 2 0 (inl 3);
      EBindToDevice 3 None;
      EConnect 3 {| syscall.Port := 53; syscall.Addr := [0; 0; 0; 0] |} None;
      ENewFile 3;
      EFileConn 3 (inl 4);
      EWriteMsg 4 (query_of Sample.healthy "example.com") None;
      EReadMsg 4 (inl Sample.response);
      EClose by_Conn 4;
      EClose by_File 3;
      EClose by_syscall 3]) /\
  fst (bindLookupIP Sample.ContextError Sample.healthy "example.com"
         (Sample.bound (Sample.binder None) "2001:4860:4860::8888" 0))
  <> Returns None (Some (Sample.ContextError (errors.New "invalid IP address"))).
Proof.
  split; [vm_compute; reflexivity | split; [vm_compute; reflexivity |]].
  vm_compute. discriminate.
Qed.

(** C9, as amended. On the bound path, once the socket is created, a
    configured resolver address that parses to an address without a 4-byte
    form (an IPv6 literal that is not IPv4-mapped) passes the check of the
    parse step: the four-byte destination stays all zeros, and the event that
    follows the device binding is the connect of the socket to 0.0.0.0, port
    53. It is the only connect, and whatever is sent is sent after it. *)
Theorem bindLookupIP_IPv6_resolver_connects_to_zero :
  forall ContextError w host config b fd ipAddr,
    socket_created w host config b fd ->
    net.ParseIP (BindToDeviceDnsServer config) = Some ipAddr ->
    net.To4 ipAddr = None ->
    let zero := {| syscall.Port := 53; syscall.Addr := [0; 0; 0; 0] |} in
    sockAddr_of ipAddr = zero /\
    exists rest,
      snd (bindLookupIP ContextError w host config)
      = ([ESocket syscall.AF_INET syscall.SOCK_DGRAM 0 (inl fd);
          EBindToDevice fd (BindToDevice b fd);
          EConnect fd zero (syscall_Connect w fd zero)] ++ rest)%list /\
      none is_connect rest.
Proof.
  intros CE w host config b fd ipAddr Hsock Hres Hto4 zero.
  assert (Hzero : sockAddr_of ipAddr = zero).
  { unfold sockAddr_of. rewrite Hto4. reflexivity. }
  split; [exact Hzero|].
  destruct (syscall_Connect w fd zero) as [err|] eqn:Hconn.
  - rewrite <- Hzero in Hconn.
    rewrite (run_connect_fails CE w host config b fd ipAddr err Hsock Hres Hconn).
    rewrite Hzero. simpl. eexists. split; [reflexivity|]. repeat constructor.
  - rewrite <- Hzero in Hconn.
    assert (Hs : socket_connected w host config b fd ipAddr)
      by (repeat split; solve [apply Hsock | assumption]).
    destruct (net_FileConn w fd) as [conn|err] eqn:Hfc.
    + rewrite (run_exchange CE w host config b fd ipAddr conn (conj Hs Hfc)).
      rewrite Hzero. simpl. eexists. split; [reflexivity|].
      unfold deadlines_of. destruct (ConnectTimeout config =? 0); repeat constructor.
    + rewrite (run_FileConn_fails CE w host config b fd ipAddr err Hs Hfc).
      rewrite Hzero. simpl. eexists. split; [reflexivity|]. repeat constructor.
Qed.

Lemma bindLookupIP_IPv6_resolver_connects_to_zero_witness :
  sockAddr_of [32; 1; 72; 96; 72; 96; 0; 0; 0; 0; 0; 0; 0; 0; 136; 136]
  = {| syscall.Port := 53; syscall.Addr := [0; 0; 0; 0] |}.
Proof.
  refine (proj1 (bindLookupIP_IPv6_resolver_connects_to_zero Sample.ContextError
                   Sample.healthy "example.com"
                   (Sample.bound (Sample.binder None) "2001:4860:4860::8888" 5000)
                   (Sample.binder None) 3
                   [32; 1; 72; 96; 72; 96; 0; 0; 0; 0; 0; 0; 0; 0; 136; 136]
                   _ _ _)).
  - repeat split.
  - vm_compute. reflexivity.
  - vm_compute. reflexivity.
Defined.

(** C9, as stated, fails: "::ffff:8.8.8.8" is a syntactically valid IPv6
    literal, the IPv4-mapped form of 8.8.8.8. [net.ParseIP] accepts it, [To4]
    yields the four bytes 8.8.8.8, and the socket is connected to 8.8.8.8:53
    and not to 0.0.0.0:53. *)
Lemma bindLookupIP_IPv4_mapped_resolver_counterexample :
  net.parseIPv4 "::ffff:8.8.8.8" = None /\
  net.parseIPv6 "::ffff:8.8.8.8" = Some (net.IPv4 8 8 8 8) /\
  net.ParseIP "::ffff:8.8.8.8" = net.parseIPv6 "::ffff:8.8.8.8" /\
  net.To4 (net.IPv4 8 8 8 8) = Some [8; 8; 8; 8] /\
  snd (bindLookupIP Sample.ContextError Sample.healthy "example.com"
         (Sample.bound (Sample.binder None) "::ffff:8.8.8.8" 0))
  = [ESocket 2 2 0 (inl 3);
     EBindToDevice 3 None;
     EConnect 3 {| syscall.Port := 53; syscall.Addr := [8; 8; 8; 8] |} None;
     ENewFile 3;
     EFileConn 3 (inl 4);
     EWriteMsg 4 (query_of Sample.healthy "example.com") None;
     EReadMsg 4 (inl Sample.response);
     EClose by_Conn 4;
     EClose by_File 3;
     EClose by_syscall 3].
Proof. repeat split; vm_compute; reflexivity. Qed.

(** ** Deadlines *)

(** C6. On the bound path, once the socket is wrapped as a connection, a
    non-zero [ConnectTimeout] is set as the read deadline and as the write
    deadline of that connection, each counted from the clock reading taken for
    it, and both before the query is written; with a zero [ConnectTimeout] no
    deadline is set at all. *)
Theorem bindLookupIP_deadlines_before_query :
  forall ContextError w host config b fd ipAddr conn,
    conn_wrapped w host config b fd ipAddr conn ->
    exists before deadlines after,
      snd (bindLookupIP ContextError w host config)
      = (before ++ deadlines
         ++ EWriteMsg conn (query_of w host) (conn_WriteMsg w (query_of w host))
         :: after)%list /\
      none is_deadline before /\ none is_write before /\
      none is_deadline after /\ none is_write after /\
      (ConnectTimeout config <> 0 ->
       deadlines = [ESetReadDeadline conn (time_Now w 0 + ConnectTimeout config);
                    ESetWriteDeadline conn (time_Now w 1 + ConnectTimeout config)]) /\
      (ConnectTimeout config = 0 -> deadlines = []).
Proof.
  intros CE w host config b fd ipAddr conn Hpath.
  rewrite (run_exchange CE w host config b fd ipAddr conn Hpath). simpl snd.
  exists [ESocket syscall.AF_INET syscall.SOCK_DGRAM 0 (inl fd);
          EBindToDevice fd (BindToDevice b fd);
          EConnect fd (sockAddr_of ipAddr) None;
          ENewFile fd;
          EFileConn fd (inl conn)].
  exists (deadlines_of w config conn).
  exists [EReadMsg conn (conn_ReadMsg w (query_of w host));
          EClose by_Conn conn; EClose by_File fd; EClose by_syscall fd].
  split; [reflexivity|].
  do 4 (split; [repeat constructor|]).
  unfold deadlines_of. split; intros HT.
  - apply Z.eqb_neq in HT. now rewrite HT.
  - now rewrite HT.
Qed.

Lemma bindLookupIP_deadlines_before_query_witness :
  exists before after,
    snd (bindLookupIP Sample.ContextError Sample.healthy "example.com"
           (Sample.bound (Sample.binder None) "8.8.8.8" 5000))
    = (before
       ++ [ESetReadDeadline 4 1005000; ESetWriteDeadline 4 1005001]
       ++ EWriteMsg 4 (query_of Sample.healthy "example.com") None :: after)%list /\
    none is_deadline before /\ none is_deadline after.
Proof.
  destruct (bindLookupIP_deadlines_before_query Sample.ContextError Sample.healthy
              "example.com" (Sample.bound (Sample.binder None) "8.8.8.8" 5000)
              (Sample.binder None) 3 (net.IPv4 8 8 8 8) 4
              (sample_conn_wrapped "8.8.8.8" (net.IPv4 8 8 8 8) 5000 None
                 (inl Sample.response) eq_refl))
    as (before & deadlines & after & Htrace & Hb & _ & Ha & _ & Hset & _).
  exists before, after.
  rewrite (Hset ltac:(discriminate)) in Htrace.
  split; [exact Htrace | split; assumption].
Defined.

(** ** The device binding *)

(** C7. On the bound path, once the socket is created, [BindToDevice] is
    called exactly once, on the descriptor of that socket, right after the
    socket creation and hence before the connect; what it answers is never
    looked at: with any other binder in its place the call returns the same
    results and goes through the same events. *)
Theorem bindLookupIP_binds_once_and_ignores_result :
  forall ContextError w host config b fd,
    socket_created w host config b fd ->
    exists rest,
      snd (bindLookupIP ContextError w host config)
      = ESocket syscall.AF_INET syscall.SOCK_DGRAM 0 (inl fd)
        :: EBindToDevice fd (BindToDevice b fd) :: rest /\
      none is_socket rest /\ none is_bind rest /\
      forall b',
        fst (bindLookupIP ContextError w host (with_binder config b'))
        = fst (bindLookupIP ContextError w host config) /\
        snd (bindLookupIP ContextError w host (with_binder config b'))
        = ESocket syscall.AF_INET syscall.SOCK_DGRAM 0 (inl fd)
          :: EBindToDevice fd (BindToDevice b' fd) :: rest.
Proof.
  intros CE w host config b fd Hsock.
  assert (Hsock' : forall b', socket_created w host (with_binder config b') b' fd).
  { intros b'. destruct Hsock as (Hh & _ & Hs). repeat split; assumption. }
  destruct (net.ParseIP (BindToDeviceDnsServer config)) as [ipAddr|] eqn:Hres.
  2: { rewrite (run_invalid_resolver CE w host config b fd Hsock Hres).
       eexists. split; [reflexivity|]. do 2 (split; [repeat constructor|]).
       intros b'.
       rewrite (run_invalid_resolver CE w host _ b' fd (Hsock' b') Hres).
       split; reflexivity. }
  destruct (syscall_Connect w fd (sockAddr_of ipAddr)) as [err|] eqn:Hconn.
  { rewrite (run_connect_fails CE w host config b fd ipAddr err Hsock Hres Hconn).
    eexists. split; [reflexivity|]. do 2 (split; [repeat constructor|]).
    intros b'.
    rewrite (run_connect_fails CE w host _ b' fd ipAddr err (Hsock' b') Hres Hconn).
    split; reflexivity. }
  assert (Hs : socket_connected w host config b fd ipAddr)
    by (repeat split; solve [apply Hsock | assumption]).
  assert (Hs' : forall b', socket_connected w host (with_binder config b') b' fd ipAddr).
  { intros b'. split; [apply Hsock' | split; assumption]. }
  destruct (net_FileConn w fd) as [conn|err] eqn:Hfc.
  - rewrite (run_exchange CE w host config b fd ipAddr conn (conj Hs Hfc)).
    eexists. split; [reflexivity|].
    split; [|split].
    + unfold deadlines_of. destruct (ConnectTimeout config =? 0); repeat constructor.
    + unfold deadlines_of. destruct (ConnectTimeout config =? 0); repeat constructor.
    + intros b'.
      rewrite (run_exchange CE w host _ b' fd ipAddr conn (conj (Hs' b') Hfc)).
      split; reflexivity.
  - rewrite (run_FileConn_fails CE w host config b fd ipAddr err Hs Hfc).
    eexists. split; [reflexivity|]. do 2 (split; [repeat constructor|]).
    intros b'.
    rewrite (run_FileConn_fails CE w host _ b' fd ipAddr err (Hs' b') Hfc).
    split; reflexivity.
Qed.

(** A failing device binding, EPERM, against a succeeding one: the same
    addresses are returned. *)
Lemma bindLookupIP_binds_once_and_ignores_result_witness :
  fst (bindLookupIP Sample.ContextError Sample.healthy "example.com"
         (with_binder (Sample.bound (Sample.binder None) "8.8.8.8" 0)
            (Sample.binder (Some Sample.EPERM))))
  = fst (bindLookupIP Sample.ContextError Sample.healthy "example.com"
           (Sample.bound (Sample.binder None) "8.8.8.8" 0)).
Proof.
  destruct (bindLookupIP_binds_once_and_ignores_result Sample.ContextError
              Sample.healthy "example.com"
              (Sample.bound (Sample.binder None) "8.8.8.8" 0)
              (Sample.binder None) 3 (conj eq_refl (conj eq_refl eq_refl)))
    as (rest & _ & _ & _ & Hany).
  exact (proj1 (Hany (Sample.binder (Some Sample.EPERM)))).
Defined.

(** ** The query write *)

(** What [WriteMsg] answers does not reach the caller: the response is read
    next whatever it was, and the results of the call are those of the read. *)
Lemma write_result_ignored ContextError w host config b fd ipAddr conn :
  conn_wrapped w host config b fd ipAddr conn ->
  fst (bindLookupIP ContextError w host config)
    = after_read ContextError (conn_ReadMsg w (query_of w host)) /\
  exists before after,
    snd (bindLookupIP ContextError w host config)
    = (before
       ++ [EWriteMsg conn (query_of w host) (conn_WriteMsg w (query_of w host));
           EReadMsg conn (conn_ReadMsg w (query_of w host))]
       ++ after)%list.
Proof.
  intros Hpath.
  rewrite (run_exchange ContextError w host config b fd ipAddr conn Hpath).
  split; [reflexivity|]. simpl snd.
  exists ([ESocket syscall.AF_INET syscall.SOCK_DGRAM 0 (inl fd);
           EBindToDevice fd (BindToDevice b fd);
           EConnect fd (sockAddr_of ipAddr) None;
           ENewFile fd;
           EFileConn fd (inl conn)] ++ deadlines_of w config conn)%list.
  exists [EClose by_Conn conn; EClose by_File fd; EClose by_syscall fd].
  now rewrite <- !app_assoc.
Qed.

(** C2, on the code. The write of the query fails with EPERM. The call does
    not stop there: it goes on to read, and what it returns is decided by the
    read alone. When the read times out, the error surfaced is that of the
    read; when a response arrives all the same, addresses are returned with no
    error. The error of the write is lost both times. *)
Theorem bindLookupIP_drops_write_error :
  forall ContextError,
    bindLookupIP ContextError
      (Sample.world (inl 3) None (inl 4) (Some Sample.EPERM) (inr Sample.timeout))
      "example.com" (Sample.bound (Sample.binder None) "8.8.8.8" 0)
    = (Returns None (Some (ContextError Sample.timeout)),
       [ESocket 2 2 0 (inl 3);
        EBindToDevice 3 None;
        EConnect 3 {| syscall.Port := 53; syscall.Addr := [8; 8; 8; 8] |} None;
        ENewFile 3;
        EFileConn 3 (inl 4);
        EWriteMsg 4 (query_of Sample.healthy "example.com") (Some Sample.EPERM);
        EReadMsg 4 (inr Sample.timeout);
        EClose by_Conn 4;
        EClose by_File 3;
        EClose by_syscall 3]) /\
    fst (bindLookupIP ContextError
           (Sample.world (inl 3) None (inl 4) (Some Sample.EPERM) (inl Sample.response))
           "example.com" (Sample.bound (Sample.binder None) "8.8.8.8" 0))
    = Returns (Some [[93; 184; 216; 34]; [93; 184; 216; 35]]) None.
Proof.
  intros CE. split.
  - rewrite (run_exchange CE _ "example.com" _ (Sample.binder None) 3
               (net.IPv4 8 8 8 8) 4
               (sample_conn_wrapped "8.8.8.8" (net.IPv4 8 8 8 8) 0
                  (Some Sample.EPERM) (inr Sample.timeout) eq_refl)).
    reflexivity.
  - rewrite (run_exchange CE _ "example.com" _ (Sample.binder None) 3
               (net.IPv4 8 8 8 8) 4
               (sample_conn_wrapped "8.8.8.8" (net.IPv4 8 8 8 8) 0
                  (Some Sample.EPERM) (inl Sample.response) eq_refl)).
    reflexivity.
Qed.

(** ** Descriptors *)

Section Descriptors.

Variable ContextError : error -> error.
Variable w : World.
Variables (host : string) (config : DialConfig).

Ltac eqb_cases :=
  repeat match goal with
         | |- context [?x =? ?x] => rewrite (Z.eqb_refl x)
         | |- context [?x =? ?y] => destruct (x =? y) eqn:?
         | _ => progress simpl
         end.

(** No call leaves a descriptor open. *)
Lemma no_descriptor_left_open :
  fst (descriptors (snd (bindLookupIP ContextError w host config)) [] 0) = [].
Proof.
  destruct (path_total w host config)
    as [ip Hl | e Hh Hs | fd Hh Hs Hp | b fd Hc Hr | b fd ip e Hc Hr Hk
        | b fd ip e Hc Hf | b fd ip conn Hc].
  - now rewrite (run_literal _ _ _ _ _ Hl).
  - now rewrite (run_socket_fails _ _ _ _ _ Hh Hs).
  - rewrite (run_nil_provider _ _ _ _ _ Hh Hs Hp). simpl. now rewrite Z.eqb_refl.
  - rewrite (run_invalid_resolver _ _ _ _ _ _ Hc Hr). simpl. now rewrite Z.eqb_refl.
  - rewrite (run_connect_fails _ _ _ _ _ _ _ _ Hc Hr Hk). simpl. now rewrite Z.eqb_refl.
  - rewrite (run_FileConn_fails _ _ _ _ _ _ _ _ Hc Hf). simpl. now rewrite Z.eqb_refl.
  - rewrite (run_exchange _ _ _ _ _ _ _ _ Hc). unfold deadlines_of.
    destruct (ConnectTimeout config =? 0); simpl;
      destruct (conn_ReadMsg w (query_of w host)); eqb_cases; reflexivity.
Qed.

(** Before [os.NewFile] is reached, the socket is closed once. *)
Lemma socket_closed_once_before_NewFile b fd :
  socket_created w host config b fd ->
  (net.ParseIP (BindToDeviceDnsServer config) = None \/
   exists ipAddr err,
     net.ParseIP (BindToDeviceDnsServer config) = Some ipAddr /\
     syscall_Connect w fd (sockAddr_of ipAddr) = Some err) ->
  count (closes fd) (snd (bindLookupIP ContextError w host config)) = 1%nat.
Proof.
  intros Hc [Hr | (ip & e & Hr & Hk)].
  - rewrite (run_invalid_resolver _ _ _ _ _ _ Hc Hr).
    unfold count. simpl. now rewrite Z.eqb_refl.
  - rewrite (run_connect_fails _ _ _ _ _ _ _ _ Hc Hr Hk).
    unfold count. simpl. now rewrite Z.eqb_refl.
Qed.

(** Once [os.NewFile] is reached, the descriptor of the socket is closed
    twice, first by the deferred [file.Close()], then by the deferred
    [syscall.Close(socketFd)], and the second close finds it closed. *)
Lemma socket_closed_twice_after_NewFile b fd ipAddr :
  socket_connected w host config b fd ipAddr ->
  (forall conn, net_FileConn w fd = inl conn -> conn <> fd) ->
  count (closes fd) (snd (bindLookupIP ContextError w host config)) = 2%nat /\
  snd (descriptors (snd (bindLookupIP ContextError w host config)) [] 0) = 1%nat.
Proof.
  intros Hc Hdup.
  destruct (net_FileConn w fd) as [conn|err] eqn:Hfc.
  - assert (Hne : (conn =? fd) = false) by (apply Z.eqb_neq; now apply Hdup).
    assert (Hne' : (fd =? conn) = false) by (now rewrite Z.eqb_sym).
    rewrite (run_exchange _ _ _ _ _ _ _ _ (conj Hc Hfc)). unfold deadlines_of, count.
    destruct (ConnectTimeout config =? 0); simpl;
      destruct (conn_ReadMsg w (query_of w host)); simpl;
      rewrite ?Z.eqb_refl, ?Hne, ?Hne'; simpl;
      rewrite ?Z.eqb_refl, ?Hne, ?Hne'; simpl;
      rewrite ?Z.eqb_refl, ?Hne, ?Hne'; split; reflexivity.
  - rewrite (run_FileConn_fails _ _ _ _ _ _ _ _ Hc Hfc). unfold count. simpl.
    rewrite !Z.eqb_refl. simpl. rewrite ?Z.eqb_refl. split; reflexivity.
Qed.

End Descriptors.

(** C4, on the code. Every step succeeds: descriptor 3 is the socket,
    descriptor 4 its duplicate inside the connection. At the return no
    descriptor is left open, but descriptor 3 is closed twice: by the deferred
    [file.Close()] and then by the deferred [syscall.Close(socketFd)], which
    hits a descriptor that is no longer open. The same happens when
    [net.FileConn] fails. *)
Theorem bindLookupIP_closes_socket_twice :
  forall ContextError,
    snd (bindLookupIP ContextError Sample.healthy "example.com"
           (Sample.bound (Sample.binder None) "8.8.8.8" 0))
    = [ESocket 2 2 0 (inl 3);
       EBindToDevice 3 None;
       EConnect 3 {| syscall.Port := 53; syscall.Addr := [8; 8; 8; 8] |} None;
       ENewFile 3;
       EFileConn 3 (inl 4);
       EWriteMsg 4 (query_of Sample.healthy "example.com") None;
       EReadMsg 4 (inl Sample.response);
       EClose by_Conn 4;
       EClose by_File 3;
       EClose by_syscall 3] /\
    count (opens 3)
      (snd (bindLookupIP ContextError Sample.healthy "example.com"
              (Sample.bound (Sample.binder None) "8.8.8.8" 0))) = 1%nat /\
    count (closes 3)
      (snd (bindLookupIP ContextError Sample.healthy "example.com"
              (Sample.bound (Sample.binder None) "8.8.8.8" 0))) = 2%nat /\
    descriptors
      (snd (bindLookupIP ContextError Sample.healthy "example.com"
              (Sample.bound (Sample.binder None) "8.8.8.8" 0))) [] 0 = ([], 1%nat) /\
    count (closes 3)
      (snd (bindLookupIP ContextError
              (Sample.world (inl 3) None (inr Sample.EMFILE) None (inl Sample.response))
              "example.com" (Sample.bound (Sample.binder None) "8.8.8.8" 0))) = 2%nat.
Proof.
  intros CE. unfold Sample.healthy.
  rewrite (run_exchange CE _ "example.com" _ (Sample.binder None) 3
             (net.IPv4 8 8 8 8) 4
             (sample_conn_wrapped "8.8.8.8" (net.IPv4 8 8 8 8) 0 None
                (inl Sample.response) eq_refl)).
  rewrite (run_FileConn_fails CE
             (Sample.world (inl 3) None (inr Sample.EMFILE) None (inl Sample.response))
             "example.com" (Sample.bound (Sample.binder None) "8.8.8.8" 0)
             (Sample.binder None) 3 (net.IPv4 8 8 8 8) Sample.EMFILE
             (conj (conj eq_refl (conj eq_refl eq_refl)) (conj eq_refl eq_refl))
             eq_refl).
  repeat split.
Qed.

(** The general facts above, on concrete runs. *)

Lemma write_result_ignored_witness :
  fst (bindLookupIP Sample.ContextError
         (Sample.world (inl 3) None (inl 4) (Some Sample.EPERM) (inl Sample.response))
         "example.com" (Sample.bound (Sample.binder None) "8.8.8.8" 0))
  = Returns (Some [[93; 184; 216; 34]; [93; 184; 216; 35]]) None.
Proof.
  exact (proj1 (write_result_ignored Sample.ContextError
                  (Sample.world (inl 3) None (inl 4) (Some Sample.EPERM)
                     (inl Sample.response))
                  "example.com" (Sample.bound (Sample.binder None) "8.8.8.8" 0)
                  (Sample.binder None) 3 (net.IPv4 8 8 8 8) 4
                  (sample_conn_wrapped "8.8.8.8" (net.IPv4 8 8 8 8) 0
                     (Some Sample.EPERM) (inl Sample.response) eq_refl))).
Defined.

Lemma socket_closed_once_before_NewFile_witness :
  count (closes 3)
    (snd (bindLookupIP Sample.ContextError
            (Sample.world (inl 3) (Some Sample.ENETUNREACH) (inl 4) None
               (inl Sample.response))
            "example.com" (Sample.bound (Sample.binder None) "8.8.8.8" 0)))
  = 1%nat.
Proof.
  apply (socket_closed_once_before_NewFile Sample.ContextError
           (Sample.world (inl 3) (Some Sample.ENETUNREACH) (inl 4) None
              (inl Sample.response))
           "example.com" (Sample.bound (Sample.binder None) "8.8.8.8" 0)
           (Sample.binder None) 3 (conj eq_refl (conj eq_refl eq_refl))).
  right. exists (net.IPv4 8 8 8 8), Sample.ENETUNREACH. split; reflexivity.
Defined.

Lemma socket_closed_twice_after_NewFile_witness :
  count (closes 3)
    (snd (bindLookupIP Sample.ContextError Sample.healthy "example.com"
            (Sample.bound (Sample.binder None) "8.8.8.8" 5000)))
  = 2%nat.
Proof.
  refine (proj1 (socket_closed_twice_after_NewFile Sample.ContextError
                   Sample.healthy "example.com"
                   (Sample.bound (Sample.binder None) "8.8.8.8" 5000)
                   (Sample.binder None) 3 (net.IPv4 8 8 8 8)
                   (conj (conj eq_refl (conj eq_refl eq_refl)) (conj eq_refl eq_refl))
                   _)).
  intros conn Hconn. injection Hconn as <-. discriminate.
Defined.

(** ** One pass, in order *)

Section OnePass.

Variable ContextError : error -> error.
Variable w : World.
Variables (host : string) (config : DialConfig).

Ltac by_path tac :=
  destruct (path_total w host config)
    as [ip Hl | err Hh Hs | fd Hh Hs Hp | b fd Hc Hr | b fd ip err Hc Hr Hk
        | b fd ip err Hc Hf | b fd ip conn Hc];
  [ rewrite (run_literal ContextError w host config ip Hl)
  | rewrite (run_socket_fails ContextError w host config err Hh Hs)
  | rewrite (run_nil_provider ContextError w host config fd Hh Hs Hp)
  | rewrite (run_invalid_resolver ContextError w host config b fd Hc Hr)
  | rewrite (run_connect_fails ContextError w host config b fd ip err Hc Hr Hk)
  | rewrite (run_FileConn_fails ContextError w host config b fd ip err Hc Hf)
  | rewrite (run_exchange ContextError w host config b fd ip conn Hc);
    unfold deadlines_of; destruct (ConnectTimeout config =? 0) ];
  tac.

(** There is no retry: a call creates at most one socket, binds it at most
    once, connects at most once, and writes and reads at most one message. *)
Lemma bindLookupIP_single_pass :
  let tr := snd (bindLookupIP ContextError w host config) in
  (count is_socket tr <= 1)%nat /\
  (count is_bind tr <= 1)%nat /\
  (count is_connect tr <= 1)%nat /\
  (count is_write tr <= 1)%nat /\
  (count is_read tr <= 1)%nat.
Proof.
  by_path ltac:(unfold count; simpl; repeat split; lia).
Qed.

(** The events of a call follow the order of the text: socket, bind, connect,
    file, connection, deadlines, write, read; the closes come after every
    other event. *)
Lemma bindLookupIP_events_in_order :
  in_order (snd (bindLookupIP ContextError w host config)) = true.
Proof.
  by_path ltac:(reflexivity).
Qed.

(** Every event of a call that is handed a descriptor, the closes apart
    (binding, connect, wrapping as a file and as a connection, deadlines,
    write, read), is handed one that this call opened earlier and has not
    closed yet. *)
Lemma bindLookupIP_uses_open_descriptors :
  uses_open (snd (bindLookupIP ContextError w host config)) [] = true.
Proof.
  by_path ltac:(simpl; rewrite ?Z.eqb_refl; simpl;
                repeat match goal with
                       | |- context [?x =? ?y] => destruct (x =? y)
                       end; reflexivity).
Qed.

End OnePass.

(** ** How a call ends *)

(** A nil error comes with a non-nil address list, and in two ways only: the
    host was a literal, echoed with no event at all, or a response was read and
    the list was collected from its answer section. *)
Lemma bindLookupIP_success ContextError w host config addrs tr :
  bindLookupIP ContextError w host config = (Returns addrs None, tr) ->
  (exists ipAddr,
     net.ParseIP host = Some ipAddr /\ addrs = Some [ipAddr] /\ tr = []) \/
  (exists response,
     net.ParseIP host = None /\
     conn_ReadMsg w (query_of w host) = inl response /\
     addrs = Some (collect (dns.Answer response))).
Proof.
  intros Hrun.
  destruct (path_total w host config)
    as [ip Hl | err Hh Hs | fd Hh Hs Hp | b fd Hc Hr | b fd ip err Hc Hr Hk
        | b fd ip err Hc Hf | b fd ip conn Hc].
  - rewrite (run_literal _ _ _ _ _ Hl) in Hrun. injection Hrun as <- <-.
    left. eauto.
  - rewrite (run_socket_fails _ _ _ _ _ Hh Hs) in Hrun. discriminate.
  - rewrite (run_nil_provider _ _ _ _ _ Hh Hs Hp) in Hrun. discriminate.
  - rewrite (run_invalid_resolver _ _ _ _ _ _ Hc Hr) in Hrun. discriminate.
  - rewrite (run_connect_fails _ _ _ _ _ _ _ _ Hc Hr Hk) in Hrun. discriminate.
  - rewrite (run_FileConn_fails _ _ _ _ _ _ _ _ Hc Hf) in Hrun. discriminate.
  - rewrite (run_exchange _ _ _ _ _ _ _ _ Hc) in Hrun. unfold after_read in Hrun.
    destruct (conn_ReadMsg w (query_of w host)) as [response|err] eqn:Hread;
      [|discriminate].
    injection Hrun as <- <-. right. exists response.
    split; [apply Hc | split; reflexivity].
Qed.

Lemma bindLookupIP_success_witness :
  (exists ipAddr,
     net.ParseIP "example.com" = Some ipAddr /\
     Some [[93; 184; 216; 34]; [93; 184; 216; 35]] = Some [ipAddr] /\
     snd (bindLookupIP Sample.ContextError Sample.healthy "example.com"
            (Sample.bound (Sample.binder None) "8.8.8.8" 0)) = []) \/
  (exists response,
     net.ParseIP "example.com" = None /\
     conn_ReadMsg Sample.healthy (query_of Sample.healthy "example.com") = inl response /\
     Some [[93; 184; 216; 34]; [93; 184; 216; 35]]
     = Some (collect (dns.Answer response))).
Proof.
  apply (bindLookupIP_success Sample.ContextError Sample.healthy "example.com"
           (Sample.bound (Sample.binder None) "8.8.8.8" 0)).
  reflexivity.
Defined.

(** ** Where the socket is connected to *)

Lemma copy_length dst src : List.length (net.copy dst src) = List.length dst.
Proof.
  unfold net.copy.
  rewrite length_app, length_firstn, length_skipn. lia.
Qed.

Lemma To4_IPv4 a b c d : net.To4 (net.IPv4 a b c d) = Some [a; b; c; d].
Proof. reflexivity. Qed.

(** Every connect of a call is made on the descriptor of the socket the call
    created, to port 53, with an address of exactly four bytes, whatever the
    resolver address parsed to. *)
Lemma bindLookupIP_connect_destination ContextError w host config fd sa r :
  In (EConnect fd sa r) (snd (bindLookupIP ContextError w host config)) ->
  syscall_Socket w syscall.AF_INET syscall.SOCK_DGRAM 0 = inl fd /\
  syscall.Port sa = 53 /\
  List.length (syscall.Addr sa) = 4%nat /\
  r = syscall_Connect w fd sa.
Proof.
  assert (Hlen : forall ip, List.length (syscall.Addr (sockAddr_of ip)) = 4%nat).
  { intros ip. unfold sockAddr_of. simpl. now rewrite copy_length. }
  destruct (path_total w host config)
    as [ip Hl | err Hh Hs | fd' Hh Hs Hp | b fd' Hc Hr | b fd' ip err Hc Hr Hk
        | b fd' ip err Hc Hf | b fd' ip conn Hc].
  - rewrite (run_literal _ _ _ _ _ Hl). simpl. tauto.
  - rewrite (run_socket_fails _ _ _ _ _ Hh Hs). simpl.
    intros [H|[]]; discriminate.
  - rewrite (run_nil_provider _ _ _ _ _ Hh Hs Hp). simpl.
    intros [H|[H|[]]]; discriminate.
  - rewrite (run_invalid_resolver _ _ _ _ _ _ Hc Hr). simpl.
    intros [H|[H|[H|[]]]]; discriminate.
  - rewrite (run_connect_fails _ _ _ _ _ _ _ _ Hc Hr Hk). simpl.
    intros [H|[H|[H|[H|[]]]]]; try discriminate.
    injection H as <- <- <-. destruct Hc as (_ & _ & Hs).
    repeat split; auto.
  - rewrite (run_FileConn_fails _ _ _ _ _ _ _ _ Hc Hf). simpl.
    intros [H|[H|[H|[H|[H|[H|[H|[]]]]]]]]; try discriminate.
    injection H as <- <- <-. destruct Hc as ((_ & _ & Hs) & _ & Hk).
    repeat split; auto.
  - rewrite (run_exchange _ _ _ _ _ _ _ _ Hc). simpl.
    intros [H|[H|[H|[H|[H|H]]]]]; try discriminate.
    + injection H as <- <- <-. destruct Hc as (((_ & _ & Hs) & _ & Hk) & _).
      repeat split; auto.
    + exfalso. apply in_app_or in H. destruct H as [H|H].
      * unfold deadlines_of in H. destruct (ConnectTimeout config =? 0); simpl in H;
          repeat (destruct H as [H|H]; try discriminate); contradiction.
      * simpl in H. repeat (destruct H as [H|H]; try discriminate). contradiction.
Qed.

Lemma bindLookupIP_connect_destination_witness :
  syscall_Socket Sample.healthy syscall.AF_INET syscall.SOCK_DGRAM 0 = inl 3 /\
  syscall.Port {| syscall.Port := 53; syscall.Addr := [8; 8; 4; 4] |} = 53 /\
  List.length (syscall.Addr {| syscall.Port := 53; syscall.Addr := [8; 8; 4; 4] |})
  = 4%nat /\
  None = syscall_Connect Sample.healthy 3
           {| syscall.Port := 53; syscall.Addr := [8; 8; 4; 4] |}.
Proof.
  refine (bindLookupIP_connect_destination Sample.ContextError Sample.healthy
            "example.com" (Sample.bound (Sample.binder None) "8.8.4.4" 0)
            3 {| syscall.Port := 53; syscall.Addr := [8; 8; 4; 4] |} None _).
  vm_compute. right. right. left. reflexivity.
Defined.

(** With a resolver address that parses to the IPv4 address a.b.c.d, the
    socket is connected to a.b.c.d, port 53, right after the device binding. *)
Lemma bindLookupIP_IPv4_resolver_destination
    ContextError w host config b fd x1 x2 x3 x4 :
  socket_created w host config b fd ->
  net.ParseIP (BindToDeviceDnsServer config) = Some (net.IPv4 x1 x2 x3 x4) ->
  let dest := {| syscall.Port := 53; syscall.Addr := [x1; x2; x3; x4] |} in
  exists rest,
    snd (bindLookupIP ContextError w host config)
    = ESocket syscall.AF_INET syscall.SOCK_DGRAM 0 (inl fd)
      :: EBindToDevice fd (BindToDevice b fd)
      :: EConnect fd dest (syscall_Connect w fd dest)
      :: rest.
Proof.
  intros Hsock Hres dest.
  assert (Hdest : sockAddr_of (net.IPv4 x1 x2 x3 x4) = dest) by reflexivity.
  destruct (syscall_Connect w fd dest) as [err|] eqn:Hconn.
  - rewrite <- Hdest in Hconn.
    rewrite (run_connect_fails _ _ _ _ _ _ _ _ Hsock Hres Hconn).
    rewrite Hdest. simpl. eexists. reflexivity.
  - rewrite <- Hdest in Hconn.
    assert (Hs : socket_connected w host config b fd (net.IPv4 x1 x2 x3 x4))
      by (repeat split; solve [apply Hsock | assumption]).
    destruct (net_FileConn w fd) as [conn|err] eqn:Hfc.
    + rewrite (run_exchange _ _ _ _ _ _ _ _ (conj Hs Hfc)). rewrite Hdest.
      simpl. eexists. reflexivity.
    + rewrite (run_FileConn_fails _ _ _ _ _ _ _ _ Hs Hfc). rewrite Hdest.
      simpl. eexists. reflexivity.
Qed.

Lemma bindLookupIP_IPv4_resolver_destination_witness :
  exists rest,
    snd (bindLookupIP Sample.ContextError Sample.healthy "example.com"
           (Sample.bound (Sample.binder None) "8.8.4.4" 0))
    = ESocket syscall.AF_INET syscall.SOCK_DGRAM 0 (inl 3)
      :: EBindToDevice 3 None
      :: EConnect 3 {| syscall.Port := 53; syscall.Addr := [8; 8; 4; 4] |} None
      :: rest.
Proof.
  exact (bindLookupIP_IPv4_resolver_destination Sample.ContextError Sample.healthy
           "example.com" (Sample.bound (Sample.binder None) "8.8.4.4" 0)
           (Sample.binder None) 3 8 8 4 4
           (conj eq_refl (conj eq_refl eq_refl)) eq_refl).
Defined.

(** ** The connection and the addresses *)

(** The duplicate descriptor held by the connection is closed exactly once,
    by the deferred [dnsConn.Close()], and before the two closes of the socket
    descriptor. *)
Lemma conn_closed_once ContextError w host config b fd ipAddr conn :
  conn_wrapped w host config b fd ipAddr conn ->
  conn <> fd ->
  count (closes conn) (snd (bindLookupIP ContextError w host config)) = 1%nat /\
  exists before,
    snd (bindLookupIP ContextError w host config)
    = (before ++ [EClose by_Conn conn; EClose by_File fd; EClose by_syscall fd])%list /\
    none is_close before.
Proof.
  intros Hpath Hne.
  assert (Hneq : (fd =? conn) = false) by (apply Z.eqb_neq; congruence).
  rewrite (run_exchange ContextError w host config b fd ipAddr conn Hpath).
  simpl snd. split.
  - unfold deadlines_of, count.
    destruct (ConnectTimeout config =? 0); simpl;
      rewrite ?Z.eqb_refl, ?Hneq; reflexivity.
  - exists ([ESocket syscall.AF_INET syscall.SOCK_DGRAM 0 (inl fd);
             EBindToDevice fd (BindToDevice b fd);
             EConnect fd (sockAddr_of ipAddr) None;
             ENewFile fd;
             EFileConn fd (inl conn)]
            ++ deadlines_of w config conn
            ++ [EWriteMsg conn (query_of w host) (conn_WriteMsg w (query_of w host));
                EReadMsg conn (conn_ReadMsg w (query_of w host))])%list.
    split.
    + simpl. f_equal. f_equal. f_equal. f_equal. f_equal.
      rewrite <- !app_assoc. reflexivity.
    + unfold deadlines_of. destruct (ConnectTimeout config =? 0); repeat constructor.
Qed.

Lemma conn_closed_once_witness :
  count (closes 4)
    (snd (bindLookupIP Sample.ContextError Sample.healthy "example.com"
            (Sample.bound (Sample.binder None) "8.8.8.8" 5000)))
  = 1%nat.
Proof.
  refine (proj1 (conn_closed_once Sample.ContextError Sample.healthy "example.com"
                   (Sample.bound (Sample.binder None) "8.8.8.8" 5000)
                   (Sample.binder None) 3 (net.IPv4 8 8 8 8) 4
                   (sample_conn_wrapped "8.8.8.8" (net.IPv4 8 8 8 8) 5000 None
                      (inl Sample.response) eq_refl)
                   _)).
  discriminate.
Defined.

Lemma A_addresses_length answers :
  List.length (A_addresses answers) = List.length (filter is_A answers).
Proof.
  induction answers as [|rr rest IH]; simpl; [reflexivity|].
  destruct rr; simpl; rewrite ?length_app; simpl; now rewrite IH.
Qed.

(** After a successful exchange the list returned holds an address exactly
    when the answer section has a record of type A with that address, and it
    has as many entries as the answer section has records of type A: no
    address is dropped, merged or invented. *)
Lemma bindLookupIP_addresses_are_the_A_records
    ContextError w host config b fd ipAddr conn response :
  conn_wrapped w host config b fd ipAddr conn ->
  conn_ReadMsg w (query_of w host) = inl response ->
  exists addrs,
    fst (bindLookupIP ContextError w host config) = Returns (Some addrs) None /\
    (forall a, In a addrs <-> exists hdr, In (dns.A hdr a) (dns.Answer response)) /\
    List.length addrs = List.length (filter is_A (dns.Answer response)) /\
    (List.length addrs <= List.length (dns.Answer response))%nat.
Proof.
  intros Hpath Hread.
  exists (collect (dns.Answer response)). split.
  - rewrite (run_exchange ContextError w host config b fd ipAddr conn Hpath).
    simpl. now rewrite Hread.
  - rewrite collect_A_addresses. split; [|split].
    + intros a. apply A_addresses_In.
    + apply A_addresses_length.
    + rewrite A_addresses_length. apply filter_length_le.
Qed.

Lemma bindLookupIP_addresses_are_the_A_records_witness :
  exists addrs,
    fst (bindLookupIP Sample.ContextError Sample.healthy "example.com"
           (Sample.bound (Sample.binder None) "8.8.8.8" 0))
    = Returns (Some addrs) None /\
    List.length addrs = 2%nat.
Proof.
  destruct (bindLookupIP_addresses_are_the_A_records Sample.ContextError
              Sample.healthy "example.com"
              (Sample.bound (Sample.binder None) "8.8.8.8" 0)
              (Sample.binder None) 3 (net.IPv4 8 8 8 8) 4 Sample.response
              (sample_conn_wrapped "8.8.8.8" (net.IPv4 8 8 8 8) 0 None
                 (inl Sample.response) eq_refl)
              eq_refl)
    as (addrs & Hrun & _ & Hlen & _).
  exists addrs. split; [exact Hrun | exact Hlen].
Defined.

